(** * indicator-datetime: the [DateTime] value type of src/date-time.cpp

    [DateTime] pairs a shared [GTimeZone] handle with a shared [GDateTime]
    handle and forwards every calendar computation to GLib.  This file
    embeds the class over an interface for the GLib calls it makes, gives
    one executable calendar engine implementing that interface, and
    states and proves what the class does where the specification makes a
    claim about it. *)

From Stdlib Require Import ZArith Lia Bool Ascii String List QArith Qround.
From ExtLib Require Import Structures.Monad.
Import ListNotations.
Import MonadNotation.
Local Open Scope string_scope.
Local Open Scope monad_scope.
Local Open Scope Z_scope.

(** ** Control flow of GLib's checking macros

    [g_assert (e)] aborts the process when [e] is false; the message names
    the expression.  [g_return_if_fail (e)] logs a critical warning and
    returns from the enclosing function; control goes back to the caller.
    The default build is modelled: neither G_DISABLE_ASSERT nor
    G_DISABLE_CHECKS is defined and criticals are not fatal. *)

Inductive outcome (A : Type) : Type :=
| Returned (a : A)
| Aborted (assertion : string).

Arguments Returned {A} a.
Arguments Aborted {A} assertion.

Definition outcome_bind {A B} (c : outcome A) (k : A -> outcome B) : outcome B :=
  match c with
  | Returned a => k a
  | Aborted e => Aborted e
  end.

#[export] Instance Monad_outcome : Monad outcome :=
  {| ret := @Returned; bind := @outcome_bind |}.

Definition g_assert (expr : string) (holds : bool) : outcome unit :=
  if holds then Returned tt else Aborted expr.

Definition returns {A} (c : outcome A) : bool :=
  match c with Returned _ => true | Aborted _ => false end.

Definition aborts {A} (c : outcome A) : bool := negb (returns c).

(** A C pointer is an [option]: [None] is [nullptr]. *)
Definition is_null {A} (p : option A) : bool :=
  match p with None => true | Some _ => false end.

Definition non_null {A} (p : option A) : bool := negb (is_null p).

(** ** The GLib calls made by date-time.cpp

    GLib is not part of the repository; the class is verified against its
    interface.  Functions that return a pointer return an [option].  The
    calls that read the process environment (the local zone, the clock)
    take the environment as [World].  [int], [time_t] and [gint64] values
    are only passed through by the class, never computed with, so they are
    integers without wrap-around; [gdouble] stays abstract, with the
    conversion C++ applies to an [int] argument. *)

Class GLib : Type := {
  GTimeZone : Type;
  GDateTime : Type;
  gdouble : Type;
  World : Type;
  gdouble_of_int : Z -> gdouble;
  g_time_zone_new_local : World -> option GTimeZone;
  g_time_zone_new : string -> option GTimeZone;
  g_date_time_new_now_local : World -> option GDateTime;
  g_date_time_new_local :
    World -> Z -> Z -> Z -> Z -> Z -> gdouble -> option GDateTime;
  g_date_time_new_from_unix_local : World -> Z -> option GDateTime;
  g_date_time_new :
    GTimeZone -> Z -> Z -> Z -> Z -> Z -> gdouble -> option GDateTime;
  g_date_time_to_timezone : GDateTime -> option GTimeZone -> option GDateTime;
  g_date_time_add_full :
    GDateTime -> Z -> Z -> Z -> Z -> Z -> gdouble -> option GDateTime;
  g_date_time_format : GDateTime -> string -> option string;
  g_date_time_get_ymd : GDateTime -> Z * Z * Z;
  g_date_time_get_year : GDateTime -> Z;
  g_date_time_get_day_of_year : GDateTime -> Z;
  g_date_time_get_day_of_month : GDateTime -> Z;
  g_date_time_get_hour : GDateTime -> Z;
  g_date_time_get_minute : GDateTime -> Z;
  g_date_time_get_seconds : GDateTime -> gdouble;
  g_date_time_to_unix : GDateTime -> Z;
  g_date_time_compare : GDateTime -> GDateTime -> Z;
  g_date_time_difference : GDateTime -> GDateTime -> Z
}.

(** ** The class

    Every member function is a function of the receiver.  A function that
    can reach a failing [g_assert] returns an [outcome].  The calls to
    [g_time_zone_unref] and [g_date_time_unref] that end the constructors
    and transformations release the function's own references; they do
    not change the value returned and are left out. *)

Section DateTimeClass.

Context {glib : GLib}.

(** The two data members, [std::shared_ptr<GTimeZone> m_tz] and
    [std::shared_ptr<GDateTime> m_dt].  The reference counts are not
    modelled; no property below depends on them. *)
Record DateTime : Type := mkDateTime {
  m_tz : option GTimeZone;
  m_dt : option GDateTime
}.

(** [DateTime::DateTime()]: both members are empty shared pointers. *)
Definition DateTime_default : DateTime :=
  {| m_tz := None; m_dt := None |}.

(** Modelled from the spec: [is_set] is defined in the header
    datetime/date-time.h, which is not among the sources; the data model
    calls a value set when both handles are present. *)
Definition is_set (a : DateTime) : bool :=
  non_null (m_tz a) && non_null (m_dt a).

(** [DateTime::reset], as a transformer of the object's state.  When the
    guard fails the function returns and the members keep their values. *)
Definition reset (this : DateTime) (gtz : option GTimeZone)
    (gdt : option GDateTime) : outcome DateTime :=
  if negb (Bool.eqb (is_null gdt) (is_null gtz)) then Returned this
  else
    this <- match gtz with
            | Some tz =>
                let this := {| m_tz := Some tz; m_dt := m_dt this |} in
                g_assert "m_tz" (non_null (m_tz this)) ;;
                ret this
            | None => ret {| m_tz := None; m_dt := m_dt this |}
            end ;;
    match gdt with
    | Some dt =>
        let this := {| m_tz := m_tz this; m_dt := Some dt |} in
        g_assert "m_dt" (non_null (m_dt this)) ;;
        ret this
    | None => ret {| m_tz := m_tz this; m_dt := None |}
    end.

(** The constructor taking a [GTimeZone] pointer and a [GDateTime]
    pointer: the members start out empty; a failed guard leaves them so. *)
Definition DateTime_of_pair (gtz : option GTimeZone)
    (gdt : option GDateTime) : outcome DateTime :=
  if negb (Bool.eqb (is_null gtz) (is_null gdt)) then Returned DateTime_default
  else reset DateTime_default gtz gdt.

(** [DateTime::operator=]. *)
Definition operator_assign (this that : DateTime) : DateTime :=
  let this := {| m_tz := m_tz that; m_dt := m_dt this |} in
  {| m_tz := m_tz this; m_dt := m_dt that |}.

(** [DateTime::DateTime(time_t)]. *)
Definition DateTime_of_time_t (w : World) (t : Z) : outcome DateTime :=
  let gtz := g_time_zone_new_local w in
  let gdt := g_date_time_new_from_unix_local w t in
  reset DateTime_default gtz gdt.

Definition NowLocal (w : World) : outcome DateTime :=
  let gtz := g_time_zone_new_local w in
  let gdt := g_date_time_new_now_local w in
  DateTime_of_pair gtz gdt.

Definition Local (w : World) (year month day hour minute seconds : Z)
    : outcome DateTime :=
  let gtz := g_time_zone_new_local w in
  let gdt := g_date_time_new_local w year month day hour minute
               (gdouble_of_int seconds) in
  DateTime_of_pair gtz gdt.

(** [DateTime::get]: the assertion precedes the return, so the pointer
    handed to the caller is never null. *)
Definition get (this : DateTime) : outcome GDateTime :=
  match m_dt this with
  | Some dt => Returned dt
  | None => Aborted "m_dt"
  end.

Definition to_timezone (this : DateTime) (zone : string) : outcome DateTime :=
  let gtz := g_time_zone_new zone in
  dt <- get this ;;
  let gdt := g_date_time_to_timezone dt gtz in
  DateTime_of_pair gtz gdt.

Definition ymd (this : DateTime) : outcome (Z * Z * Z) :=
  dt <- get this ;; ret (g_date_time_get_ymd dt).

Definition day_of_month (this : DateTime) : outcome Z :=
  dt <- get this ;; ret (g_date_time_get_day_of_month dt).

Definition hour (this : DateTime) : outcome Z :=
  dt <- get this ;; ret (g_date_time_get_hour dt).

Definition minute (this : DateTime) : outcome Z :=
  dt <- get this ;; ret (g_date_time_get_minute dt).

Definition seconds (this : DateTime) : outcome gdouble :=
  dt <- get this ;; ret (g_date_time_get_seconds dt).

Definition to_unix (this : DateTime) : outcome Z :=
  dt <- get this ;; ret (g_date_time_to_unix dt).

Definition format (this : DateTime) (fmt : string) : outcome string :=
  dt <- get this ;;
  match g_date_time_format dt fmt with
  | Some str => ret str
  | None => ret ""
  end.

Definition start_of_day (this : DateTime) : outcome DateTime :=
  g_assert "is_set()" (is_set this) ;;
  match m_tz this with
  | None => Aborted "m_tz.get() != nullptr"
  | Some tz =>
      '(y, m, d) <- ymd this ;;
      let gdt := g_date_time_new tz y m d 0 0 (gdouble_of_int 0) in
      DateTime_of_pair (Some tz) gdt
  end.

Definition start_of_minute (this : DateTime) : outcome DateTime :=
  g_assert "is_set()" (is_set this) ;;
  match m_tz this with
  | None => Aborted "m_tz.get() != nullptr"
  | Some tz =>
      '(y, m, d) <- ymd this ;;
      h <- hour this ;;
      mi <- minute this ;;
      let gdt := g_date_time_new tz y m d h mi (gdouble_of_int 0) in
      DateTime_of_pair (Some tz) gdt
  end.

Definition add_full (this : DateTime) (years months days hours minutes : Z)
    (secs : gdouble) : outcome DateTime :=
  dt <- get this ;;
  let gdt := g_date_time_add_full dt years months days hours minutes secs in
  DateTime_of_pair (m_tz this) gdt.

Definition add_days (this : DateTime) (days : Z) : outcome DateTime :=
  add_full this 0 0 days 0 0 (gdouble_of_int 0).

Definition operator_lt (this that : DateTime) : outcome bool :=
  dt <- get this ;; tdt <- get that ;;
  ret (g_date_time_compare dt tdt <? 0).

Definition operator_le (this that : DateTime) : outcome bool :=
  dt <- get this ;; tdt <- get that ;;
  ret (g_date_time_compare dt tdt <=? 0).

(** [DateTime::operator==].  Both pointers come from [get]; the two null
    tests of the source follow, then the comparison calls [get] again. *)
Definition operator_eq (this that : DateTime) : outcome bool :=
  dt <- get this ;;
  tdt <- get that ;;
  let dt := Some dt in
  let tdt := Some tdt in
  if is_null dt && is_null tdt then ret true
  else if is_null dt || is_null tdt then ret false
  else
    l <- get this ;; r <- get that ;;
    ret (g_date_time_compare l r =? 0).

(** [DateTime::operator!=]; [||] does not evaluate its right operand when
    the left one is true. *)
Definition operator_ne (this that : DateTime) : outcome bool :=
  if is_null (m_dt this) then ret true
  else
    e <- operator_eq this that ;;
    ret (negb e).

Definition operator_sub (this that : DateTime) : outcome Z :=
  dt <- get this ;; tdt <- get that ;;
  ret (g_date_time_difference dt tdt).

Definition is_same_day (a b : DateTime) : outcome bool :=
  if is_null (m_dt a) || is_null (m_dt b) then ret false
  else
    adt <- get a ;;
    bdt <- get b ;;
    ret ((g_date_time_get_year adt =? g_date_time_get_year bdt)
         && (g_date_time_get_day_of_year adt =? g_date_time_get_day_of_year bdt)).

Definition is_same_minute (a b : DateTime) : outcome bool :=
  same <- is_same_day a b ;;
  if negb same then ret false
  else
    adt <- get a ;;
    bdt <- get b ;;
    ret ((g_date_time_get_hour adt =? g_date_time_get_hour bdt)
         && (g_date_time_get_minute adt =? g_date_time_get_minute bdt)).

(** The invariant of the data model: the zone handle is absent exactly
    when the moment handle is. *)
Definition paired (a : DateTime) : Prop := m_tz a = None <-> m_dt a = None.

(** The values a program can hold: those made by a constructor or obtained
    from such values by a transformation or an assignment. *)
Inductive produced : DateTime -> Prop :=
| produced_default : produced DateTime_default
| produced_of_pair gtz gdt r :
    DateTime_of_pair gtz gdt = Returned r -> produced r
| produced_of_time_t w t r :
    DateTime_of_time_t w t = Returned r -> produced r
| produced_NowLocal w r :
    NowLocal w = Returned r -> produced r
| produced_Local w year month day hour minute seconds r :
    Local w year month day hour minute seconds = Returned r -> produced r
| produced_to_timezone a zone r :
    produced a -> to_timezone a zone = Returned r -> produced r
| produced_start_of_day a r :
    produced a -> start_of_day a = Returned r -> produced r
| produced_start_of_minute a r :
    produced a -> start_of_minute a = Returned r -> produced r
| produced_add_full a years months days hours minutes secs r :
    produced a ->
    add_full a years months days hours minutes secs = Returned r -> produced r
| produced_add_days a days r :
    produced a -> add_days a days = Returned r -> produced r
| produced_assign this that :
    produced this -> produced that -> produced (operator_assign this that).

End DateTimeClass.


(** ** A calendar engine implementing the interface

    Proleptic Gregorian calendar, zones with a fixed offset from UTC,
    microsecond resolution.  A moment is an absolute instant together with
    the zone it is shown in; its calendar fields are computed from both.
    Seconds are exact rationals.  The engine makes the assumptions on
    GLib used further down satisfiable and lets the class run on concrete
    dates. *)

Module Gregorian.

Definition usec_per_second : Z := 1000000.
Definition usec_per_minute : Z := 60000000.
Definition usec_per_hour : Z := 3600000000.
Definition usec_per_day : Z := 86400000000.

(** Day number 0 is 1970-01-01.  Years are counted from 1 March, in eras
    of 400 years (146097 days). *)
Definition civil_from_days (n : Z) : Z * Z * Z :=
  let z := n + 719468 in
  let era := z / 146097 in
  let doe := z - era * 146097 in
  let yoe := (doe - doe / 1460 + doe / 36524 - doe / 146096) / 365 in
  let doy := doe - (365 * yoe + yoe / 4 - yoe / 100) in
  let mp := (5 * doy + 2) / 153 in
  let d := doy - (153 * mp + 2) / 5 + 1 in
  let m := if mp <? 10 then mp + 3 else mp - 9 in
  let y := yoe + era * 400 in
  ((if m <=? 2 then y + 1 else y), m, d).

Definition days_from_civil (y m d : Z) : Z :=
  let y := if m <=? 2 then y - 1 else y in
  let era := y / 400 in
  let yoe := y - era * 400 in
  let doy := (153 * (if 2 <? m then m - 3 else m + 9) + 2) / 5 + d - 1 in
  let doe := yoe * 365 + yoe / 4 - yoe / 100 + doy in
  era * 146097 + doe - 719468.

Definition days_in_month (y m : Z) : Z :=
  let k := y * 12 + (m - 1) + 1 in
  days_from_civil (k / 12) (k mod 12 + 1) 1 - days_from_civil y m 1.

Record zone : Type := mkZone {
  zone_name : string;
  utc_offset : Z  (* seconds east of UTC *)
}.

Record moment : Type := mkMoment {
  instant : Z;  (* microseconds since 1970-01-01T00:00:00Z *)
  shown_in : zone
}.

Record world : Type := mkWorld {
  local_zone : zone;
  clock : Z  (* the current instant, in microseconds *)
}.

Definition local_usec (t : moment) : Z :=
  instant t + utc_offset (shown_in t) * usec_per_second.

Definition local_day (t : moment) : Z := local_usec t / usec_per_day.

Definition time_of_day (t : moment) : Z := local_usec t mod usec_per_day.

Definition get_ymd (t : moment) : Z * Z * Z := civil_from_days (local_day t).

Definition get_year (t : moment) : Z := fst (fst (get_ymd t)).

Definition get_day_of_month (t : moment) : Z := snd (get_ymd t).

Definition get_day_of_year (t : moment) : Z :=
  local_day t - days_from_civil (get_year t) 1 1 + 1.

Definition get_hour (t : moment) : Z := time_of_day t / usec_per_hour.

Definition get_minute (t : moment) : Z :=
  (time_of_day t / usec_per_minute) mod 60.

Definition get_seconds (t : moment) : Q :=
  Qred (Qmake (time_of_day t mod usec_per_minute) 1000000).

Definition unix_seconds (t : moment) : Z := instant t / usec_per_second.

Definition compare_instants (a b : moment) : Z :=
  match instant a ?= instant b with
  | Lt => -1
  | Eq => 0
  | Gt => 1
  end.

Definition difference (a b : moment) : Z := instant a - instant b.

Definition usec_of_seconds (s : Q) : Z := Qfloor (s * inject_Z usec_per_second).

Definition at_local (tz : zone) (local : Z) : moment :=
  {| instant := local - utc_offset tz * usec_per_second; shown_in := tz |}.

Definition same_fields (t : moment) (y m d h mi : Z) : bool :=
  let '(y', m', d') := get_ymd t in
  (y' =? y) && (m' =? m) && (d' =? d)
  && (get_hour t =? h) && (get_minute t =? mi).

(** Construction from calendar fields.  The moment is built from the
    fields and kept only if it decomposes into the same fields again; a
    combination the calendar does not have (30 February, hour 24) gives
    no moment. *)
Definition from_fields (tz : zone) (y m d h mi : Z) (s : Q) : option moment :=
  let local := days_from_civil y m d * usec_per_day + h * usec_per_hour
               + mi * usec_per_minute + usec_of_seconds s in
  let t := at_local tz local in
  if same_fields t y m d h mi then Some t else None.

Definition in_zone (t : moment) (gtz : option zone) : option moment :=
  match gtz with
  | Some tz => Some {| instant := instant t; shown_in := tz |}
  | None => None
  end.

(** Calendar-aware offset: years and months move the date, the day of the
    month is clamped to the length of the target month, the rest is added
    as elapsed time. *)
Definition add_calendar (t : moment) (years months days hours minutes : Z)
    (s : Q) : option moment :=
  let '(y, m, d) := get_ymd t in
  let k := y * 12 + (m - 1) + years * 12 + months in
  let y' := k / 12 in
  let m' := k mod 12 + 1 in
  let d' := Z.min d (days_in_month y' m') in
  let local := (days_from_civil y' m' d' + days) * usec_per_day
               + time_of_day t + hours * usec_per_hour
               + minutes * usec_per_minute + usec_of_seconds s in
  Some (at_local (shown_in t) local).

Definition known_zones : list (string * Z) :=
  [ ("UTC", 0); ("Z", 0); ("+01:00", 3600); ("+09:00", 32400);
    ("-05:00", -18000); ("-08:00", -28800) ].

Fixpoint lookup_zone (name : string) (table : list (string * Z)) : option zone :=
  match table with
  | [] => None
  | (n, off) :: rest =>
      if String.eqb n name then Some {| zone_name := n; utc_offset := off |}
      else lookup_zone name rest
  end.

Definition time_zone_new (name : string) : option zone :=
  lookup_zone name known_zones.

Definition digit (n : Z) : string :=
  String (Ascii.ascii_of_N (Z.to_N (48 + n mod 10))) "".

Definition pad2 (n : Z) : string := digit (n / 10) ++ digit n.

Definition pad4 (n : Z) : string := pad2 (n / 100) ++ pad2 n.

Definition directive (t : moment) (c : Ascii.ascii) : option string :=
  let '(y, m, d) := get_ymd t in
  if Ascii.eqb c "Y"%char then Some (pad4 y)
  else if Ascii.eqb c "m"%char then Some (pad2 m)
  else if Ascii.eqb c "d"%char then Some (pad2 d)
  else if Ascii.eqb c "H"%char then Some (pad2 (get_hour t))
  else if Ascii.eqb c "M"%char then Some (pad2 (get_minute t))
  else if Ascii.eqb c "S"%char then Some (pad2 (time_of_day t mod usec_per_minute / usec_per_second))
  else if Ascii.eqb c "%"%char then Some "%"
  else None.

(** A small pattern language: %Y %m %d %H %M %S and %%; any other
    directive makes the rendering fail. *)
Fixpoint render (t : moment) (fmt : string) : option string :=
  match fmt with
  | EmptyString => Some EmptyString
  | String c rest =>
      if Ascii.eqb c "%"%char then
        match rest with
        | EmptyString => None
        | String k rest' =>
            match directive t k, render t rest' with
            | Some s, Some r => Some (s ++ r)
            | _, _ => None
            end
        end
      else
        match render t rest with
        | Some r => Some (String c r)
        | None => None
        end
  end.

#[export] Instance engine : GLib := {|
  GTimeZone := zone;
  GDateTime := moment;
  gdouble := Q;
  World := world;
  gdouble_of_int := inject_Z;
  g_time_zone_new_local := fun w => Some (local_zone w);
  g_time_zone_new := time_zone_new;
  g_date_time_new_now_local :=
    fun w => Some {| instant := clock w; shown_in := local_zone w |};
  g_date_time_new_local := fun w => from_fields (local_zone w);
  g_date_time_new_from_unix_local :=
    fun w t => Some {| instant := t * usec_per_second; shown_in := local_zone w |};
  g_date_time_new := from_fields;
  g_date_time_to_timezone := in_zone;
  g_date_time_add_full := add_calendar;
  g_date_time_format := render;
  g_date_time_get_ymd := get_ymd;
  g_date_time_get_year := get_year;
  g_date_time_get_day_of_year := get_day_of_year;
  g_date_time_get_day_of_month := get_day_of_month;
  g_date_time_get_hour := get_hour;
  g_date_time_get_minute := get_minute;
  g_date_time_get_seconds := get_seconds;
  g_date_time_to_unix := unix_seconds;
  g_date_time_compare := compare_instants;
  g_date_time_difference := difference
|}.

Definition utc : zone := {| zone_name := "UTC"; utc_offset := 0 |}.
Definition tokyo : zone := {| zone_name := "+09:00"; utc_offset := 32400 |}.
Definition new_york : zone := {| zone_name := "-05:00"; utc_offset := -18000 |}.

(** 2024-03-01T10:30:00Z. *)
Definition lunchtime : moment := {| instant := 1709289000000000; shown_in := utc |}.

Definition in_utc : world := {| local_zone := utc; clock := 1709289000000000 |}.

(** 2024-01-15T09:00:00 and 2024-01-15T09:00:30 in UTC, and the first of
    them as shown in Tokyo. *)
Definition nine : DateTime :=
  {| m_tz := Some utc;
     m_dt := Some {| instant := 1705309200000000; shown_in := utc |} |}.

Definition nine_thirty_seconds : DateTime :=
  {| m_tz := Some utc;
     m_dt := Some {| instant := 1705309230000000; shown_in := utc |} |}.

Definition nine_in_tokyo : DateTime :=
  {| m_tz := Some tokyo;
     m_dt := Some {| instant := 1705309200000000; shown_in := tokyo |} |}.

(** 2024-01-15T16:00:00Z, shown in UTC and in Tokyo, where it is 01:00 of
    the next day. *)
Definition four_pm : DateTime :=
  {| m_tz := Some utc;
     m_dt := Some {| instant := 1705334400000000; shown_in := utc |} |}.

Definition four_pm_in_tokyo : DateTime :=
  {| m_tz := Some tokyo;
     m_dt := Some {| instant := 1705334400000000; shown_in := tokyo |} |}.

End Gregorian.

(** * Properties *)

Create HintDb datetime.

(** Runs the monadic steps whose outcome is known. *)
Ltac run :=
  cbn [bind ret Monad_outcome outcome_bind g_assert] in *.

(** ** The class over any implementation of the interface *)

Section DateTimeFacts.

Context {glib : GLib}.

Lemma non_null_Some {A} (p : option A) :
  non_null p = true <-> exists x, p = Some x.
Proof.
  destruct p as [x|]; cbn; split; intros H.
  - now exists x.
  - reflexivity.
  - discriminate.
  - destruct H as [x H]. discriminate.
Qed.

Lemma is_set_handles (a : DateTime) :
  is_set a = true <-> exists tz dt, m_tz a = Some tz /\ m_dt a = Some dt.
Proof.
  unfold is_set. rewrite andb_true_iff, !non_null_Some. split.
  - intros [[tz Htz] [dt Hdt]]. now exists tz, dt.
  - intros (tz & dt & Htz & Hdt). split; eauto.
Qed.

Lemma is_set_default : is_set DateTime_default = false.
Proof. reflexivity. Qed.

Lemma get_set (a : DateTime) dt : m_dt a = Some dt -> get a = Returned dt.
Proof. unfold get. now intros ->. Qed.

Lemma get_unset (a : DateTime) : m_dt a = None -> get a = Aborted "m_dt".
Proof. unfold get. now intros ->. Qed.

(** [reset] has no failing path: its two assertions test pointers that
    were just stored. *)
Lemma reset_cases (this : DateTime) gtz gdt :
  reset this gtz gdt =
  Returned (match gtz, gdt with
            | Some tz, Some dt => {| m_tz := Some tz; m_dt := Some dt |}
            | None, None => DateTime_default
            | _, _ => this
            end).
Proof. destruct gtz, gdt; reflexivity. Qed.

Lemma DateTime_of_pair_cases gtz gdt :
  DateTime_of_pair gtz gdt =
  Returned (match gtz, gdt with
            | Some tz, Some dt => {| m_tz := Some tz; m_dt := Some dt |}
            | _, _ => DateTime_default
            end).
Proof. destruct gtz, gdt; reflexivity. Qed.

Lemma paired_default : paired DateTime_default.
Proof. unfold paired. cbn. tauto. Qed.

Lemma paired_both tz dt : paired {| m_tz := Some tz; m_dt := Some dt |}.
Proof. unfold paired. cbn. split; discriminate. Qed.

#[local] Hint Resolve paired_default paired_both : datetime.

Lemma paired_of_pair gtz gdt r :
  DateTime_of_pair gtz gdt = Returned r -> paired r.
Proof.
  rewrite DateTime_of_pair_cases. intros [= <-].
  destruct gtz, gdt; auto with datetime.
Qed.

Lemma paired_reset_default gtz gdt r :
  reset DateTime_default gtz gdt = Returned r -> paired r.
Proof.
  rewrite reset_cases. intros [= <-].
  destruct gtz, gdt; auto with datetime.
Qed.

Lemma bind_Returned {A B} (c : outcome A) (k : A -> outcome B) r :
  bind c k = Returned r -> exists x, c = Returned x /\ k x = Returned r.
Proof. destruct c as [x|e]; run; [eauto | discriminate]. Qed.

Lemma operator_eq_unset_left (a b : DateTime) :
  m_dt a = None -> operator_eq a b = Aborted "m_dt".
Proof. intros H. unfold operator_eq. now rewrite (get_unset a H). Qed.

Lemma operator_eq_unset_right (a b : DateTime) :
  m_dt b = None -> operator_eq a b = Aborted "m_dt".
Proof.
  intros H. unfold operator_eq, get. rewrite H.
  destruct (m_dt a); reflexivity.
Qed.

Lemma operator_eq_set (a b : DateTime) adt bdt :
  m_dt a = Some adt -> m_dt b = Some bdt ->
  operator_eq a b = Returned (g_date_time_compare adt bdt =? 0).
Proof.
  intros Ha Hb. unfold operator_eq.
  now rewrite (get_set a _ Ha), (get_set b _ Hb).
Qed.

Lemma operator_ne_unset (a b : DateTime) :
  m_dt a = None -> operator_ne a b = Returned true.
Proof. intros H. unfold operator_ne. now rewrite H. Qed.

Lemma operator_ne_set (a b : DateTime) adt :
  m_dt a = Some adt ->
  operator_ne a b = (e <- operator_eq a b ;; ret (negb e)).
Proof. intros H. unfold operator_ne. now rewrite H. Qed.

(** C1, on the code: [operator==] reads both operands through [get],
    which asserts that the moment is present.  With an unset operand on
    either side the comparison aborts on that assertion; the two tests
    for null pointers that follow in the source are never reached. *)
Theorem operator_eq_aborts_when_unset (a : DateTime) :
  operator_eq DateTime_default DateTime_default = Aborted "m_dt"
  /\ operator_eq DateTime_default a = Aborted "m_dt"
  /\ operator_eq a DateTime_default = Aborted "m_dt".
Proof.
  split; [|split].
  - reflexivity.
  - now apply operator_eq_unset_left.
  - now apply operator_eq_unset_right.
Qed.

(** C2, on the code: for two unset values [operator!=] returns true, as
    stated, but [operator==] does not return true: it aborts in [get]. *)
Theorem operator_ne_true_while_eq_aborts :
  operator_ne DateTime_default DateTime_default = Returned true
  /\ operator_eq DateTime_default DateTime_default = Aborted "m_dt".
Proof. split; reflexivity. Qed.

(** C3: every value made by a constructor (default, from a zone and
    moment pair, from epoch seconds, [NowLocal], [Local]), by a
    transformation ([to_timezone], [start_of_day], [start_of_minute],
    [add_full], [add_days]) or by assignment has its zone handle absent
    if and only if its moment handle is absent. *)
Theorem zone_absent_iff_moment_absent (a : DateTime) :
  produced a -> (m_tz a = None <-> m_dt a = None).
Proof.
  intros H. change (paired a).
  induction H as
    [ | gtz gdt r H | w t r H | w r H | w y mo d h mi s r H
    | a z r _ _ H | a r _ _ H | a r _ _ H
    | a ys ms ds hs mis ss r _ _ H | a ds r _ _ H
    | this that _ IHthis _ IHthat ].
  - apply paired_default.
  - eapply paired_of_pair; eassumption.
  - eapply paired_reset_default; eassumption.
  - eapply paired_of_pair; eassumption.
  - eapply paired_of_pair; eassumption.
  - unfold to_timezone in H.
    apply bind_Returned in H as (dt & _ & H).
    eapply paired_of_pair; eassumption.
  - unfold start_of_day in H.
    apply bind_Returned in H as (_ & _ & H).
    destruct (m_tz a) as [tz|]; [|discriminate].
    apply bind_Returned in H as ([[y m] d] & _ & H).
    eapply paired_of_pair; eassumption.
  - unfold start_of_minute in H.
    apply bind_Returned in H as (_ & _ & H).
    destruct (m_tz a) as [tz|]; [|discriminate].
    apply bind_Returned in H as ([[y m] d] & _ & H).
    apply bind_Returned in H as (h & _ & H).
    apply bind_Returned in H as (mi & _ & H).
    eapply paired_of_pair; eassumption.
  - unfold add_full in H.
    apply bind_Returned in H as (dt & _ & H).
    eapply paired_of_pair; eassumption.
  - unfold add_days, add_full in H.
    apply bind_Returned in H as (dt & _ & H).
    eapply paired_of_pair; eassumption.
  - unfold paired, operator_assign in *. cbn. exact IHthat.
Qed.

(** C7: [is_same_day] returns false when the moment of [a] or of [b] is
    absent, as it is in an unset value; when both are present it returns
    true exactly when the two moments have the same year and the same day
    of the year, each read from its own moment; and it is symmetric. *)
Theorem is_same_day_spec (a b : DateTime) :
  (m_dt a = None \/ m_dt b = None -> is_same_day a b = Returned false)
  /\ (forall adt bdt, m_dt a = Some adt -> m_dt b = Some bdt ->
      exists r, is_same_day a b = Returned r
        /\ (r = true <->
            g_date_time_get_year adt = g_date_time_get_year bdt
            /\ g_date_time_get_day_of_year adt = g_date_time_get_day_of_year bdt))
  /\ is_same_day a b = is_same_day b a.
Proof.
  unfold is_same_day, get. split; [|split].
  - intros [-> | ->]; [reflexivity|]. now rewrite orb_true_r.
  - intros adt bdt -> ->. cbn. eexists. split; [reflexivity|].
    now rewrite andb_true_iff, !Z.eqb_eq.
  - destruct (m_dt a) as [adt|], (m_dt b) as [bdt|]; cbn; try reflexivity.
    now rewrite (Z.eqb_sym (g_date_time_get_year adt)),
                (Z.eqb_sym (g_date_time_get_day_of_year adt)).
Qed.

Lemma is_same_day_returns (a b : DateTime) :
  exists r, is_same_day a b = Returned r.
Proof.
  unfold is_same_day, get.
  destruct (m_dt a), (m_dt b); cbn; eauto.
Qed.

Lemma is_same_day_true (a b : DateTime) :
  is_same_day a b = Returned true ->
  exists adt bdt, m_dt a = Some adt /\ m_dt b = Some bdt.
Proof.
  unfold is_same_day.
  destruct (m_dt a) as [adt|], (m_dt b) as [bdt|]; cbn;
    try discriminate; eauto.
Qed.

(** C8: [is_same_minute] returns false when [is_same_day] returns false;
    when [is_same_day] returns true both moments are present and
    [is_same_minute] returns true exactly when their hour fields are equal
    and their minute fields are equal; so a true [is_same_minute] implies a
    true [is_same_day].  It returns on every pair of values. *)
Theorem is_same_minute_spec (a b : DateTime) :
  (is_same_day a b = Returned false -> is_same_minute a b = Returned false)
  /\ (is_same_day a b = Returned true ->
      exists adt bdt r, m_dt a = Some adt /\ m_dt b = Some bdt
        /\ is_same_minute a b = Returned r
        /\ (r = true <->
            g_date_time_get_hour adt = g_date_time_get_hour bdt
            /\ g_date_time_get_minute adt = g_date_time_get_minute bdt))
  /\ (is_same_minute a b = Returned true -> is_same_day a b = Returned true)
  /\ (exists r, is_same_minute a b = Returned r).
Proof.
  assert (Htrue : is_same_day a b = Returned true ->
      exists adt bdt r, m_dt a = Some adt /\ m_dt b = Some bdt
        /\ is_same_minute a b = Returned r
        /\ (r = true <->
            g_date_time_get_hour adt = g_date_time_get_hour bdt
            /\ g_date_time_get_minute adt = g_date_time_get_minute bdt)).
  { intros H. destruct (is_same_day_true a b H) as (adt & bdt & Ha & Hb).
    exists adt, bdt,
      ((g_date_time_get_hour adt =? g_date_time_get_hour bdt)
       && (g_date_time_get_minute adt =? g_date_time_get_minute bdt)).
    split; [assumption|]. split; [assumption|]. split.
    - unfold is_same_minute. rewrite H. run. cbn [negb].
      now rewrite (get_set a _ Ha), (get_set b _ Hb).
    - now rewrite andb_true_iff, !Z.eqb_eq. }
  assert (Hfalse : is_same_day a b = Returned false ->
                   is_same_minute a b = Returned false).
  { intros H. unfold is_same_minute. now rewrite H. }
  split; [assumption|]. split; [assumption|]. split.
  - intros H. destruct (is_same_day_returns a b) as [[|] Hd]; [assumption|].
    rewrite (Hfalse Hd) in H. discriminate.
  - destruct (is_same_day_returns a b) as [[|] Hd].
    + destruct (Htrue Hd) as (_ & _ & r & _ & _ & Hr & _). eauto.
    + eauto.
Qed.

(** C9, as the code has it: when exactly one of the two pointers is null
    the guard of the constructor returns at once, without aborting, and
    the new value is the unset one; [reset] with such a pair returns and
    leaves the object as it was. *)
Theorem mismatched_pair_returns_unset gtz gdt (this : DateTime) :
  is_null gtz <> is_null gdt ->
  DateTime_of_pair gtz gdt = Returned DateTime_default
  /\ reset this gtz gdt = Returned this.
Proof.
  intros H. rewrite DateTime_of_pair_cases, reset_cases.
  destruct gtz, gdt; cbn in H; try (now elim H); split; reflexivity.
Qed.

(** C10: [add_days n] is [add_full (0, 0, n, 0, 0, 0)], on every value
    and every [n]: with a moment present both are the pair of the
    receiver's zone and the moment GLib returns for the offset of [n]
    days, without one both abort in [get]. *)
Theorem add_days_is_add_full (a : DateTime) (n : Z) :
  add_days a n = add_full a 0 0 n 0 0 (gdouble_of_int 0)
  /\ add_full a 0 0 n 0 0 (gdouble_of_int 0) =
     match m_dt a with
     | Some dt =>
         DateTime_of_pair (m_tz a)
           (g_date_time_add_full dt 0 0 n 0 0 (gdouble_of_int 0))
     | None => Aborted "m_dt"
     end.
Proof.
  split; [reflexivity|].
  unfold add_full, get. destruct (m_dt a); reflexivity.
Qed.

End DateTimeFacts.

(** ** The transformations, given the contract of the GLib calls

    What [start_of_day], [start_of_minute] and [to_timezone] return
    depends on what GLib returns, which the class cannot guarantee by
    itself.  The contract is stated on the interface, as hypotheses;
    [Gregorian.engine] satisfies it. *)

Section TruncationInZone.

Context {glib : GLib}.

(** The zone of the receiver. *)
Variable tz : GTimeZone.

(** In [tz], a moment built from calendar fields with whole second 0 shows
    these fields.  GLib documents this for every wall-clock time that
    exists in the zone; a time that the zone skips is moved forward to the
    next existing one, so the hypothesis describes a zone that skips
    none of the times asked for. *)
Hypothesis g_date_time_new_fields : forall y m d h mi r,
  g_date_time_new tz y m d h mi (gdouble_of_int 0) = Some r ->
  g_date_time_get_ymd r = (y, m, d)
  /\ g_date_time_get_hour r = h
  /\ g_date_time_get_minute r = mi
  /\ g_date_time_get_seconds r = gdouble_of_int 0.

(** Fields read from a moment are in range: building midnight of its day,
    or second 0 of its minute, in [tz] yields a moment. *)
Hypothesis g_date_time_new_midnight : forall dt y m d,
  g_date_time_get_ymd dt = (y, m, d) ->
  non_null (g_date_time_new tz y m d 0 0 (gdouble_of_int 0)) = true.

Hypothesis g_date_time_new_minute : forall dt y m d,
  g_date_time_get_ymd dt = (y, m, d) ->
  non_null (g_date_time_new tz y m d (g_date_time_get_hour dt)
              (g_date_time_get_minute dt) (gdouble_of_int 0)) = true.



End TruncationInZone.

Section ZoneConversion.

Context {glib : GLib}.

(** Showing a moment in another zone yields a moment and keeps its Unix
    time. *)
Hypothesis g_date_time_to_timezone_defined : forall dt tz,
  non_null (g_date_time_to_timezone dt (Some tz)) = true.

Hypothesis g_date_time_to_timezone_unix : forall dt tz r,
  g_date_time_to_timezone dt (Some tz) = Some r ->
  g_date_time_to_unix r = g_date_time_to_unix dt.


End ZoneConversion.

(** ** The calendar engine satisfies the assumptions *)

Section GregorianFacts.

Import Gregorian.

Lemma year_of_era_bounds (doe : Z) :
  0 <= doe <= 146096 ->
  let yoe := (doe - doe / 1460 + doe / 36524 - doe / 146096) / 365 in
  0 <= yoe <= 399 /\ 0 <= doe - (365 * yoe + yoe / 4 - yoe / 100) <= 365.
Proof.
  intros H yoe. subst yoe. Z.div_mod_to_equations. lia.
Qed.

(** The day number of the date of day [n] is [n]. *)
Lemma days_from_civil_of_date (n : Z) :
  let '(y, m, d) := civil_from_days n in days_from_civil y m d = n.
Proof.
  unfold civil_from_days.
  set (z := n + 719468).
  set (era := z / 146097).
  set (doe := z - era * 146097).
  assert (Hdoe : 0 <= doe <= 146096)
    by (subst doe era; Z.div_mod_to_equations; lia).
  pose proof (year_of_era_bounds doe Hdoe) as Hy. cbv zeta in Hy.
  set (yoe := (doe - doe / 1460 + doe / 36524 - doe / 146096) / 365) in *.
  set (doy := doe - (365 * yoe + yoe / 4 - yoe / 100)) in *.
  destruct Hy as [Hyoe Hdoy].
  set (mp := (5 * doy + 2) / 153).
  assert (Hmp : 0 <= mp <= 11) by (subst mp; Z.div_mod_to_equations; lia).
  unfold days_from_civil.
  destruct (mp <? 10) eqn:E.
  - apply Z.ltb_lt in E.
    replace (mp + 3 <=? 2) with false by (symmetry; apply Z.leb_gt; lia).
    replace (2 <? mp + 3) with true by (symmetry; apply Z.ltb_lt; lia).
    replace (mp + 3 - 3) with mp by lia.
    replace ((yoe + era * 400) / 400) with era
      by (Z.div_mod_to_equations; lia).
    replace (yoe + era * 400 - era * 400) with yoe by lia.
    unfold doy, doe, z. lia.
  - apply Z.ltb_ge in E.
    replace (mp - 9 <=? 2) with true by (symmetry; apply Z.leb_le; lia).
    replace (2 <? mp - 9) with false by (symmetry; apply Z.ltb_ge; lia).
    replace (mp - 9 + 9) with mp by lia.
    replace (yoe + era * 400 + 1 - 1) with (yoe + era * 400) by lia.
    replace ((yoe + era * 400) / 400) with era
      by (Z.div_mod_to_equations; lia).
    replace (yoe + era * 400 - era * 400) with yoe by lia.
    unfold doy, doe, z. lia.
Qed.

Lemma days_from_civil_from_days (n y m d : Z) :
  civil_from_days n = (y, m, d) -> days_from_civil y m d = n.
Proof.
  intros H. pose proof (days_from_civil_of_date n) as R.
  now rewrite H in R.
Qed.

Lemma local_usec_at_local (tz : zone) (l : Z) : local_usec (at_local tz l) = l.
Proof. unfold local_usec, at_local. cbn. lia. Qed.

Lemma usec_of_whole_second_0 : usec_of_seconds (inject_Z 0) = 0.
Proof. reflexivity. Qed.

(** The first instant of minute [mi] of hour [h] of day [n] shows these
    fields. *)
Lemma fields_at_local (tz : zone) (n h mi : Z) :
  0 <= h < 24 -> 0 <= mi < 60 ->
  let t := at_local tz (n * usec_per_day + h * usec_per_hour
                        + mi * usec_per_minute + 0) in
  local_day t = n /\ get_hour t = h /\ get_minute t = mi
  /\ time_of_day t mod usec_per_minute = 0.
Proof.
  intros Hh Hmi t. subst t.
  unfold local_day, get_hour, get_minute, time_of_day.
  rewrite local_usec_at_local.
  unfold usec_per_day, usec_per_hour, usec_per_minute.
  repeat split; Z.div_mod_to_equations; lia.
Qed.

Lemma hour_minute_bounds (t : moment) :
  0 <= get_hour t < 24 /\ 0 <= get_minute t < 60.
Proof.
  unfold get_hour, get_minute, time_of_day.
  unfold usec_per_day, usec_per_hour, usec_per_minute.
  split; Z.div_mod_to_equations; lia.
Qed.

Lemma from_fields_of_day (tz : zone) (n y m d h mi : Z) :
  civil_from_days n = (y, m, d) ->
  0 <= h < 24 -> 0 <= mi < 60 ->
  from_fields tz y m d h mi (inject_Z 0)
  = Some (at_local tz (n * usec_per_day + h * usec_per_hour
                       + mi * usec_per_minute + 0)).
Proof.
  intros Hciv Hh Hmi. unfold from_fields.
  rewrite (days_from_civil_from_days _ _ _ _ Hciv), usec_of_whole_second_0.
  destruct (fields_at_local tz n h mi Hh Hmi) as (Hday & Hhour & Hminute & _).
  unfold same_fields, get_ymd. rewrite Hday, Hciv, Hhour, Hminute.
  now rewrite !Z.eqb_refl.
Qed.

Lemma from_fields_unfold (tz : zone) (y m d h mi : Z) (s : Q) :
  from_fields tz y m d h mi s =
  let t := at_local tz (days_from_civil y m d * usec_per_day
                        + h * usec_per_hour + mi * usec_per_minute
                        + usec_of_seconds s) in
  if same_fields t y m d h mi then Some t else None.
Proof. reflexivity. Qed.

Lemma kept_if_true {A} (b : bool) (t r : A) :
  (if b then Some t else None) = Some r -> r = t /\ b = true.
Proof. destruct b; [|discriminate]. intros H. split; congruence. Qed.

Lemma engine_new_fields (tz : zone) (y m d h mi : Z) (r : moment) :
  from_fields tz y m d h mi (inject_Z 0) = Some r ->
  get_ymd r = (y, m, d) /\ get_hour r = h /\ get_minute r = mi
  /\ get_seconds r = inject_Z 0.
Proof.
  rewrite from_fields_unfold, usec_of_whole_second_0. cbv zeta.
  intros H. apply kept_if_true in H as [Hr E].
  rewrite <- Hr in E. unfold same_fields in E.
  destruct (get_ymd r) as [[y' m'] d'].
  rewrite !andb_true_iff, !Z.eqb_eq in E.
  destruct E as ((((Hy & Hm) & Hd) & Hh) & Hmi).
  split; [congruence|]. split; [assumption|]. split; [assumption|].
  unfold get_seconds.
  replace (time_of_day r mod usec_per_minute) with 0; [reflexivity|].
  rewrite Hr. unfold time_of_day. rewrite local_usec_at_local.
  unfold usec_per_day, usec_per_hour, usec_per_minute.
  Z.div_mod_to_equations. lia.
Qed.

Lemma engine_new_midnight (tz : zone) (dt : moment) (y m d : Z) :
  get_ymd dt = (y, m, d) ->
  non_null (from_fields tz y m d 0 0 (inject_Z 0)) = true.
Proof.
  intros H. unfold get_ymd in H.
  now rewrite (from_fields_of_day tz _ _ _ _ 0 0 H) by lia.
Qed.

Lemma engine_new_minute (tz : zone) (dt : moment) (y m d : Z) :
  get_ymd dt = (y, m, d) ->
  non_null (from_fields tz y m d (get_hour dt) (get_minute dt) (inject_Z 0))
  = true.
Proof.
  intros H. unfold get_ymd in H.
  destruct (hour_minute_bounds dt) as [Hh Hmi].
  now rewrite (from_fields_of_day tz _ _ _ _ _ _ H Hh Hmi).
Qed.

Lemma engine_to_timezone_defined (dt : moment) (tz : zone) :
  non_null (in_zone dt (Some tz)) = true.
Proof. reflexivity. Qed.

Lemma engine_to_timezone_unix (dt : moment) (tz : zone) (r : moment) :
  in_zone dt (Some tz) = Some r -> unix_seconds r = unix_seconds dt.
Proof. cbn. now intros [= <-]. Qed.

End GregorianFacts.

(** ** The class on the calendar engine *)

Section OnTheEngine.

Import Gregorian.

Example Local_nine : Local in_utc 2024 1 15 9 0 0 = Returned nine.
Proof. reflexivity. Qed.

Example Local_nine_thirty_seconds :
  Local in_utc 2024 1 15 9 0 30 = Returned nine_thirty_seconds.
Proof. reflexivity. Qed.

Example Local_30_February :
  Local in_utc 2024 2 30 12 0 0 = Returned DateTime_default.
Proof. reflexivity. Qed.

Example same_day_and_same_minute :
  is_same_day nine nine_thirty_seconds = Returned true
  /\ is_same_minute nine nine_thirty_seconds = Returned true.
Proof. split; reflexivity. Qed.

Example add_days_next_day :
  (a <- Local in_utc 2024 3 1 10 30 0 ;;
   b <- add_days a 1 ;;
   format b "%Y-%m-%d %H:%M") = Returned "2024-03-02 10:30".
Proof. reflexivity. Qed.

Example epoch_in_UTC :
  (a <- DateTime_of_time_t in_utc 0 ;;
   b <- to_timezone a "UTC" ;;
   format b "%Y-%m-%d %H:%M") = Returned "1970-01-01 00:00".
Proof. reflexivity. Qed.

Example unknown_zone_gives_unset :
  to_timezone nine "Mars/Olympus" = Returned DateTime_default.
Proof. reflexivity. Qed.

Example same_instant_other_day :
  is_same_day nine nine_in_tokyo = Returned true
  /\ add_full nine 0 0 0 7 0 (inject_Z 0) = Returned four_pm
  /\ to_timezone four_pm "+09:00" = Returned four_pm_in_tokyo
  /\ operator_eq four_pm four_pm_in_tokyo = Returned true
  /\ is_same_day four_pm four_pm_in_tokyo = Returned false.
Proof. repeat split. Qed.

Example to_timezone_nine : to_timezone nine "+09:00" = Returned nine_in_tokyo.
Proof. reflexivity. Qed.

(** Midnight of 2024-01-16 in Tokyo is 15:00 of the day before in UTC. *)
Example start_of_day_in_tokyo :
  start_of_day four_pm_in_tokyo
  = Returned {| m_tz := Some tokyo;
                m_dt := Some {| instant := 1705330800000000;
                                shown_in := tokyo |} |}
  /\ (r <- start_of_day four_pm_in_tokyo ;; format r "%Y-%m-%d %H:%M:%S")
     = Returned "2024-01-16 00:00:00".
Proof. split; reflexivity. Qed.

Example start_of_minute_drops_seconds :
  start_of_minute nine_thirty_seconds = Returned nine.
Proof. reflexivity. Qed.

Example unset_operands :
  operator_eq DateTime_default nine = Aborted "m_dt"
  /\ operator_ne DateTime_default nine = Returned true
  /\ operator_ne nine DateTime_default = Aborted "m_dt"
  /\ operator_ne nine nine_in_tokyo = Returned false.
Proof. repeat split. Qed.

(** C9, the claim as stated fails: a zone without a moment is a pair with
    exactly one pointer present, and the constructor does not abort on
    it. *)
Lemma zone_without_moment_does_not_abort :
  ~ (is_null (Some utc) <> is_null (@None moment) ->
     aborts (DateTime_of_pair (Some utc) None) = true).
Proof.
  intros H. assert (N : is_null (Some utc) <> is_null (@None moment))
    by discriminate.
  specialize (H N). discriminate H.
Qed.

Lemma mismatched_pair_returns_unset_witness :
  is_null (Some utc) <> is_null (@None moment)
  /\ DateTime_of_pair (Some utc) None = Returned DateTime_default
  /\ reset nine (Some utc) None = Returned nine.
Proof.
  assert (N : is_null (Some utc) <> is_null (@None moment)) by discriminate.
  split; [exact N|].
  exact (@mismatched_pair_returns_unset engine (Some utc) None nine N).
Defined.

Lemma zone_absent_iff_moment_absent_witness :
  produced nine_in_tokyo
  /\ (m_tz nine_in_tokyo = None <-> m_dt nine_in_tokyo = None).
Proof.
  assert (P : produced nine_in_tokyo).
  { apply (@produced_to_timezone engine nine "+09:00").
    - apply (@produced_Local engine in_utc 2024 1 15 9 0 0). reflexivity.
    - reflexivity. }
  split; [exact P|].
  exact (@zone_absent_iff_moment_absent engine nine_in_tokyo P).
Defined.




Lemma is_same_day_spec_witness :
  is_same_day DateTime_default nine = Returned false
  /\ is_same_day nine nine_in_tokyo = is_same_day nine_in_tokyo nine.
Proof.
  destruct (@is_same_day_spec engine DateTime_default nine) as (Hunset & _ & _).
  destruct (@is_same_day_spec engine nine nine_in_tokyo) as (_ & _ & Hsym).
  split; [apply Hunset; left; reflexivity | exact Hsym].
Defined.

Lemma is_same_minute_spec_witness :
  is_same_day four_pm four_pm_in_tokyo = Returned false
  /\ is_same_minute four_pm four_pm_in_tokyo = Returned false.
Proof.
  assert (D : is_same_day four_pm four_pm_in_tokyo = Returned false)
    by reflexivity.
  destruct (@is_same_minute_spec engine four_pm four_pm_in_tokyo) as (Hfalse & _).
  split; [exact D | exact (Hfalse D)].
Defined.

End OnTheEngine.

(** * Further properties of the class *)

(** ** Values a program can hold, and when the member functions return *)

Section ValuesInUse.

Context {glib : GLib}.

Lemma operator_assign_copies (this that : DateTime) :
  operator_assign this that = that.
Proof. destruct that. reflexivity. Qed.

Lemma of_pair_returns gtz gdt : returns (DateTime_of_pair gtz gdt) = true.
Proof. now rewrite DateTime_of_pair_cases. Qed.

Lemma of_pair_shape gtz gdt r :
  DateTime_of_pair gtz gdt = Returned r ->
  r = DateTime_default \/ is_set r = true.
Proof.
  rewrite DateTime_of_pair_cases. intros [= <-].
  destruct gtz, gdt; (now left) || (now right).
Qed.

Lemma reset_default_of_pair gtz gdt :
  reset DateTime_default gtz gdt = DateTime_of_pair gtz gdt.
Proof. rewrite reset_cases, DateTime_of_pair_cases. now destruct gtz, gdt. Qed.

Lemma start_of_day_value (a : DateTime) tz dt y m d :
  m_tz a = Some tz -> m_dt a = Some dt ->
  g_date_time_get_ymd dt = (y, m, d) ->
  start_of_day a
  = DateTime_of_pair (Some tz)
      (g_date_time_new tz y m d 0 0 (gdouble_of_int 0)).
Proof.
  intros Htz Hdt Hymd. unfold start_of_day, is_set, ymd, get.
  rewrite Htz, Hdt. run. cbn [non_null is_null negb andb]. run.
  now rewrite Hymd.
Qed.

Lemma start_of_minute_value (a : DateTime) tz dt y m d :
  m_tz a = Some tz -> m_dt a = Some dt ->
  g_date_time_get_ymd dt = (y, m, d) ->
  start_of_minute a
  = DateTime_of_pair (Some tz)
      (g_date_time_new tz y m d (g_date_time_get_hour dt)
         (g_date_time_get_minute dt) (gdouble_of_int 0)).
Proof.
  intros Htz Hdt Hymd. unfold start_of_minute, is_set, ymd, hour, minute, get.
  rewrite Htz, Hdt. run. cbn [non_null is_null negb andb]. run.
  now rewrite Hymd.
Qed.

(** A value in use is the unset one or has both handles. *)
Lemma produced_shape (a : DateTime) :
  produced a -> a = DateTime_default \/ is_set a = true.
Proof.
  intros H.
  induction H as
    [ | gtz gdt r H | w t r H | w r H | w y mo d h mi s r H
    | a z r _ _ H | a r _ _ H | a r _ _ H
    | a ys ms ds hs mis ss r _ _ H | a ds r _ _ H
    | this that _ _ _ IHthat ].
  - now left.
  - eapply of_pair_shape; eassumption.
  - unfold DateTime_of_time_t in H. rewrite reset_default_of_pair in H.
    eapply of_pair_shape; eassumption.
  - eapply of_pair_shape; eassumption.
  - eapply of_pair_shape; eassumption.
  - unfold to_timezone in H. apply bind_Returned in H as (dt & _ & H).
    eapply of_pair_shape; eassumption.
  - unfold start_of_day in H. apply bind_Returned in H as (_ & _ & H).
    destruct (m_tz a) as [tz|]; [|discriminate].
    apply bind_Returned in H as ([[y m] d] & _ & H).
    eapply of_pair_shape; eassumption.
  - unfold start_of_minute in H. apply bind_Returned in H as (_ & _ & H).
    destruct (m_tz a) as [tz|]; [|discriminate].
    apply bind_Returned in H as ([[y m] d] & _ & H).
    apply bind_Returned in H as (h & _ & H).
    apply bind_Returned in H as (mi & _ & H).
    eapply of_pair_shape; eassumption.
  - unfold add_full in H. apply bind_Returned in H as (dt & _ & H).
    eapply of_pair_shape; eassumption.
  - unfold add_days, add_full in H. apply bind_Returned in H as (dt & _ & H).
    eapply of_pair_shape; eassumption.
  - now rewrite operator_assign_copies.
Qed.

Lemma produced_is_set (a : DateTime) :
  produced a -> is_set a = non_null (m_dt a).
Proof.
  intros H. destruct (produced_shape a H) as [-> | Hset]; [reflexivity|].
  rewrite Hset. apply is_set_handles in Hset as (tz & dt & _ & ->).
  reflexivity.
Qed.

(** X1: on a value in use, each accessor ([ymd], [day_of_month], [hour],
    [minute], [seconds], [to_unix], [format]) returns exactly when
    [is_set] holds, and aborts otherwise. *)
Theorem accessors_return_iff_set (a : DateTime) (fmt : string) :
  produced a ->
  returns (ymd a) = is_set a
  /\ returns (day_of_month a) = is_set a
  /\ returns (hour a) = is_set a
  /\ returns (minute a) = is_set a
  /\ returns (seconds a) = is_set a
  /\ returns (to_unix a) = is_set a
  /\ returns (format a fmt) = is_set a.
Proof.
  intros P. rewrite (produced_is_set a P).
  unfold ymd, day_of_month, hour, minute, seconds, to_unix, format, get.
  destruct (m_dt a) as [dt|]; run; [|cbn; auto 10].
  destruct (g_date_time_format dt fmt); cbn; auto 10.
Qed.

(** X2: on values in use, [operator<], [operator<=], [operator-] and
    [operator==] return exactly when both operands are set; [operator!=]
    returns exactly when its left operand is unset or its right operand is
    set. *)
Theorem binary_operators_return_iff_set (a b : DateTime) :
  produced a -> produced b ->
  returns (operator_lt a b) = is_set a && is_set b
  /\ returns (operator_le a b) = is_set a && is_set b
  /\ returns (operator_sub a b) = is_set a && is_set b
  /\ returns (operator_eq a b) = is_set a && is_set b
  /\ returns (operator_ne a b) = negb (is_set a) || is_set b.
Proof.
  intros Pa Pb. rewrite (produced_is_set a Pa), (produced_is_set b Pb).
  unfold operator_lt, operator_le, operator_sub, operator_ne, operator_eq, get.
  destruct (m_dt a), (m_dt b); cbn; auto 10.
Qed.

(** X3: on a value in use, [add_full], [add_days], [start_of_day] and
    [start_of_minute] return exactly when the receiver is set, whatever
    GLib answers; a call that GLib cannot serve still returns. *)
Theorem transformations_return_iff_set (a : DateTime)
    (years months days hours minutes : Z) (secs : gdouble) :
  produced a ->
  returns (add_full a years months days hours minutes secs) = is_set a
  /\ returns (add_days a days) = is_set a
  /\ returns (start_of_day a) = is_set a
  /\ returns (start_of_minute a) = is_set a.
Proof.
  intros P. destruct (produced_shape a P) as [-> | Hset].
  - cbn. auto.
  - rewrite Hset. apply is_set_handles in Hset as (tz & dt & Htz & Hdt).
    destruct (g_date_time_get_ymd dt) as [[y m] d] eqn:Hymd.
    rewrite (start_of_day_value a tz dt y m d Htz Hdt Hymd),
            (start_of_minute_value a tz dt y m d Htz Hdt Hymd).
    unfold add_days, add_full. rewrite (get_set a dt Hdt). run.
    now rewrite !of_pair_returns.
Qed.

(** X4: with the local zone at hand, [NowLocal], [Local] and the
    constructor from epoch seconds never abort: each gives the set value
    of the local zone and the moment GLib built, or the unset value when
    GLib built none (as for calendar fields that name no date). *)
Theorem local_constructors_wrap_glib (w : World) tz
    (year month day hour minute seconds t : Z) :
  g_time_zone_new_local w = Some tz ->
  let wrap gdt :=
    Returned match gdt with
             | Some dt => {| m_tz := Some tz; m_dt := Some dt |}
             | None => DateTime_default
             end in
  NowLocal w = wrap (g_date_time_new_now_local w)
  /\ Local w year month day hour minute seconds
     = wrap (g_date_time_new_local w year month day hour minute
               (gdouble_of_int seconds))
  /\ DateTime_of_time_t w t = wrap (g_date_time_new_from_unix_local w t).
Proof.
  intros Hz wrap. subst wrap.
  unfold NowLocal, Local, DateTime_of_time_t.
  rewrite reset_default_of_pair, Hz, !DateTime_of_pair_cases. auto.
Qed.

(** X5: on a set value [add_full] and [add_days] give a value in the
    receiver's zone holding the moment GLib computed, and [to_timezone],
    for a zone name GLib resolves, a value in that zone holding the
    converted moment; when GLib yields no moment each gives the unset
    value and does not abort. *)
Theorem transformations_wrap_glib (a : DateTime) tz dt
    (years months days hours minutes n : Z) (secs : gdouble)
    (zone : string) tz' :
  m_tz a = Some tz -> m_dt a = Some dt ->
  g_time_zone_new zone = Some tz' ->
  let wrap z gdt :=
    Returned match gdt with
             | Some r => {| m_tz := Some z; m_dt := Some r |}
             | None => DateTime_default
             end in
  add_full a years months days hours minutes secs
  = wrap tz (g_date_time_add_full dt years months days hours minutes secs)
  /\ add_days a n
     = wrap tz (g_date_time_add_full dt 0 0 n 0 0 (gdouble_of_int 0))
  /\ to_timezone a zone = wrap tz' (g_date_time_to_timezone dt (Some tz')).
Proof.
  intros Htz Hdt Hz wrap. subst wrap.
  unfold add_days, add_full, to_timezone.
  rewrite (get_set a dt Hdt), Htz, Hz. run.
  rewrite !DateTime_of_pair_cases. auto.
Qed.

(** X14: [reset] never aborts; with both pointers present or both null
    it overwrites the object, whatever it held; on a fresh object it does
    what the constructor from a pair does, so the constructor from epoch
    seconds, which calls [reset] directly, and the other constructors
    agree. *)
Theorem reset_overwrites (this : DateTime) gtz gdt :
  returns (reset this gtz gdt) = true
  /\ (is_null gtz = is_null gdt ->
      reset this gtz gdt = DateTime_of_pair gtz gdt)
  /\ reset DateTime_default gtz gdt = DateTime_of_pair gtz gdt.
Proof.
  rewrite reset_default_of_pair, reset_cases, DateTime_of_pair_cases.
  split; [reflexivity|]. split; [|reflexivity].
  destruct gtz, gdt; cbn; intros H; try discriminate; reflexivity.
Qed.

End ValuesInUse.

(** ** The coincidence predicates and the comparisons *)

Section Comparisons.

Context {glib : GLib}.

Lemma is_same_day_true_iff (a b : DateTime) :
  is_same_day a b = Returned true <->
  exists adt bdt, m_dt a = Some adt /\ m_dt b = Some bdt
    /\ g_date_time_get_year adt = g_date_time_get_year bdt
    /\ g_date_time_get_day_of_year adt = g_date_time_get_day_of_year bdt.
Proof.
  unfold is_same_day, get.
  destruct (m_dt a) as [adt|], (m_dt b) as [bdt|]; cbn; split;
    try discriminate;
    try (intros (x & y & Hx & Hy & _); discriminate).
  - intros [= H]. apply andb_true_iff in H as [Hy Hd].
    apply Z.eqb_eq in Hy, Hd. now exists adt, bdt.
  - intros (x & y & [= <-] & [= <-] & Hy & Hd).
    now rewrite Hy, Hd, !Z.eqb_refl.
Qed.

Lemma is_same_minute_true_iff (a b : DateTime) :
  is_same_minute a b = Returned true <->
  exists adt bdt, m_dt a = Some adt /\ m_dt b = Some bdt
    /\ g_date_time_get_year adt = g_date_time_get_year bdt
    /\ g_date_time_get_day_of_year adt = g_date_time_get_day_of_year bdt
    /\ g_date_time_get_hour adt = g_date_time_get_hour bdt
    /\ g_date_time_get_minute adt = g_date_time_get_minute bdt.
Proof.
  split.
  - intros H. unfold is_same_minute in H.
    destruct (is_same_day_returns a b) as [[|] Hd]; rewrite Hd in H; run;
      cbn [negb] in H; [|discriminate].
    apply is_same_day_true_iff in Hd as (adt & bdt & Ha & Hb & Hy & Hdoy).
    rewrite (get_set a adt Ha), (get_set b bdt Hb) in H. run.
    injection H as H. apply andb_true_iff in H as [Hh Hmi].
    apply Z.eqb_eq in Hh, Hmi. now exists adt, bdt.
  - intros (adt & bdt & Ha & Hb & Hy & Hdoy & Hh & Hmi).
    assert (Hd : is_same_day a b = Returned true)
      by (apply is_same_day_true_iff; now exists adt, bdt).
    unfold is_same_minute. rewrite Hd. run. cbn [negb].
    rewrite (get_set a adt Ha), (get_set b bdt Hb). run.
    now rewrite Hh, Hmi, !Z.eqb_refl.
Qed.

(** X6: [is_same_day] relates a value to itself exactly when the value
    has a moment, and it is transitive; with its symmetry it is an
    equivalence on the values that have a moment. *)
Theorem is_same_day_reflexive_transitive (a b c : DateTime) :
  is_same_day a a = Returned (non_null (m_dt a))
  /\ (is_same_day a b = Returned true -> is_same_day b c = Returned true ->
      is_same_day a c = Returned true).
Proof.
  split.
  - unfold is_same_day, get. destruct (m_dt a); cbn; [|reflexivity].
    now rewrite !Z.eqb_refl.
  - rewrite !is_same_day_true_iff.
    intros (adt & bdt & Ha & Hb & Hy & Hd) (bdt' & cdt & Hb' & Hc & Hy' & Hd').
    rewrite Hb in Hb'. injection Hb' as <-.
    exists adt, cdt. repeat (split; [congruence|]). congruence.
Qed.

(** X7: [is_same_minute] is symmetric and transitive, returns on every
    pair, and relates a value to itself exactly when the value has a
    moment. *)
Theorem is_same_minute_equivalence (a b c : DateTime) :
  is_same_minute a b = is_same_minute b a
  /\ is_same_minute a a = Returned (non_null (m_dt a))
  /\ (is_same_minute a b = Returned true ->
      is_same_minute b c = Returned true ->
      is_same_minute a c = Returned true).
Proof.
  split; [|split].
  - unfold is_same_minute, is_same_day, get.
    destruct (m_dt a) as [adt|], (m_dt b) as [bdt|]; cbn; try reflexivity.
    now rewrite (Z.eqb_sym (g_date_time_get_year adt)),
                (Z.eqb_sym (g_date_time_get_day_of_year adt)),
                (Z.eqb_sym (g_date_time_get_hour adt)),
                (Z.eqb_sym (g_date_time_get_minute adt)).
  - unfold is_same_minute, is_same_day, get.
    destruct (m_dt a); cbn; [|reflexivity]. now rewrite !Z.eqb_refl.
  - rewrite !is_same_minute_true_iff.
    intros (adt & bdt & Ha & Hb & Hy & Hd & Hh & Hmi)
           (bdt' & cdt & Hb' & Hc & Hy' & Hd' & Hh' & Hmi').
    rewrite Hb in Hb'. injection Hb' as <-.
    exists adt, cdt. repeat (split; [congruence|]). congruence.
Qed.

(** X8: on two values that have a moment the three comparisons return
    and agree: [a <= b] holds exactly when [a < b] or [a == b], and
    [a < b] and [a == b] never hold together. *)
Theorem comparisons_agree (a b : DateTime) adt bdt :
  m_dt a = Some adt -> m_dt b = Some bdt ->
  exists lt le eq,
    operator_lt a b = Returned lt
    /\ operator_le a b = Returned le
    /\ operator_eq a b = Returned eq
    /\ operator_ne a b = Returned (negb eq)
    /\ le = lt || eq
    /\ lt && eq = false.
Proof.
  intros Ha Hb.
  exists (g_date_time_compare adt bdt <? 0),
         (g_date_time_compare adt bdt <=? 0),
         (g_date_time_compare adt bdt =? 0).
  unfold operator_lt, operator_le, operator_ne.
  rewrite (operator_eq_set a b adt bdt Ha Hb), (get_set a adt Ha),
          (get_set b bdt Hb), Ha. cbn.
  repeat (split; [reflexivity|]).
  destruct (Z.ltb_spec (g_date_time_compare adt bdt) 0),
           (Z.leb_spec (g_date_time_compare adt bdt) 0),
           (Z.eqb_spec (g_date_time_compare adt bdt) 0);
    cbn; split; (reflexivity || lia).
Qed.

End Comparisons.

(** ** The comparisons, given the contract of [g_date_time_compare] *)

Section OrderContract.

Context {glib : GLib}.

(** Swapping the arguments of the three-way comparison flips its sign. *)
Hypothesis g_date_time_compare_swap : forall x y,
  g_date_time_compare y x = - g_date_time_compare x y.

Lemma g_date_time_compare_self x : g_date_time_compare x x = 0.
Proof. pose proof (g_date_time_compare_swap x x). lia. Qed.

(** X9: on values that have a moment, [==] and [<=] hold between a value
    and itself while [!=] and [<] do not; [==] is symmetric; [a < b]
    excludes [b < a]; [a <= b] or [b <= a] holds; and [a <= b] with
    [b <= a] gives [a == b]. *)
Theorem comparisons_order (a b : DateTime) adt bdt :
  m_dt a = Some adt -> m_dt b = Some bdt ->
  operator_eq a a = Returned true
  /\ operator_ne a a = Returned false
  /\ operator_le a a = Returned true
  /\ operator_lt a a = Returned false
  /\ operator_eq a b = operator_eq b a
  /\ (operator_lt a b = Returned true -> operator_lt b a = Returned false)
  /\ (operator_le a b = Returned true \/ operator_le b a = Returned true)
  /\ (operator_le a b = Returned true -> operator_le b a = Returned true ->
      operator_eq a b = Returned true).
Proof.
  intros Ha Hb.
  unfold operator_ne, operator_le, operator_lt.
  rewrite (operator_eq_set a a adt adt Ha Ha),
          (operator_eq_set a b adt bdt Ha Hb),
          (operator_eq_set b a bdt adt Hb Ha),
          (get_set a adt Ha), (get_set b bdt Hb), Ha. run.
  rewrite (g_date_time_compare_self adt).
  pose proof (g_date_time_compare_swap adt bdt) as Hswap.
  cbn [is_null negb Z.eqb Z.leb Z.ltb Z.compare].
  repeat (split; [reflexivity|]).
  rewrite Hswap.
  destruct (Z.ltb_spec (g_date_time_compare adt bdt) 0),
           (Z.leb_spec (g_date_time_compare adt bdt) 0),
           (Z.eqb_spec (g_date_time_compare adt bdt) 0),
           (Z.ltb_spec (- g_date_time_compare adt bdt) 0),
           (Z.leb_spec (- g_date_time_compare adt bdt) 0),
           (Z.eqb_spec (- g_date_time_compare adt bdt) 0);
    try lia; repeat split; auto; try discriminate.
Qed.

(** The three-way comparison is the sign of the difference. *)
Hypothesis g_date_time_compare_difference : forall x y,
  g_date_time_compare x y = Z.sgn (g_date_time_difference x y).

(** X10: on values that have a moment, [a < b], [a <= b] and [a == b]
    hold exactly when the difference [a - b] is negative, not positive
    and zero. *)
Theorem comparisons_follow_difference (a b : DateTime) adt bdt :
  m_dt a = Some adt -> m_dt b = Some bdt ->
  exists diff,
    operator_sub a b = Returned diff
    /\ operator_lt a b = Returned (diff <? 0)
    /\ operator_le a b = Returned (diff <=? 0)
    /\ operator_eq a b = Returned (diff =? 0).
Proof.
  intros Ha Hb. exists (g_date_time_difference adt bdt).
  unfold operator_sub, operator_le, operator_lt.
  rewrite (operator_eq_set a b adt bdt Ha Hb),
          (get_set a adt Ha), (get_set b bdt Hb). run.
  rewrite (g_date_time_compare_difference adt bdt).
  set (diff := g_date_time_difference adt bdt).
  split; [reflexivity|].
  assert (Hlt : (Z.sgn diff <? 0) = (diff <? 0))
    by (destruct diff; reflexivity).
  assert (Hle : (Z.sgn diff <=? 0) = (diff <=? 0))
    by (destruct diff; reflexivity).
  assert (Heq : (Z.sgn diff =? 0) = (diff =? 0))
    by (destruct diff; reflexivity).
  now rewrite Hlt, Hle, Heq.
Qed.

End OrderContract.

(** ** How the truncations compose *)

Section TruncationsCompose.

Context {glib : GLib}.

(** The zone of the receiver, with the contract of [g_date_time_new] in
    it: exact fields, and a moment for fields read from a moment. *)
Variable tz : GTimeZone.

Hypothesis g_date_time_new_fields : forall y m d h mi r,
  g_date_time_new tz y m d h mi (gdouble_of_int 0) = Some r ->
  g_date_time_get_ymd r = (y, m, d)
  /\ g_date_time_get_hour r = h
  /\ g_date_time_get_minute r = mi
  /\ g_date_time_get_seconds r = gdouble_of_int 0.

Hypothesis g_date_time_new_midnight : forall dt y m d,
  g_date_time_get_ymd dt = (y, m, d) ->
  non_null (g_date_time_new tz y m d 0 0 (gdouble_of_int 0)) = true.

Hypothesis g_date_time_new_minute : forall dt y m d,
  g_date_time_get_ymd dt = (y, m, d) ->
  non_null (g_date_time_new tz y m d (g_date_time_get_hour dt)
              (g_date_time_get_minute dt) (gdouble_of_int 0)) = true.

Lemma start_of_day_built (a : DateTime) dt y m d :
  m_tz a = Some tz -> m_dt a = Some dt ->
  g_date_time_get_ymd dt = (y, m, d) ->
  exists r,
    g_date_time_new tz y m d 0 0 (gdouble_of_int 0) = Some r
    /\ start_of_day a = Returned {| m_tz := Some tz; m_dt := Some r |}.
Proof.
  intros Htz Hdt Hymd.
  pose proof (g_date_time_new_midnight dt y m d Hymd) as Hnew.
  apply non_null_Some in Hnew as [r Hr]. exists r. split; [assumption|].
  now rewrite (start_of_day_value a tz dt y m d Htz Hdt Hymd), Hr.
Qed.

Lemma start_of_minute_built (a : DateTime) dt y m d :
  m_tz a = Some tz -> m_dt a = Some dt ->
  g_date_time_get_ymd dt = (y, m, d) ->
  exists r,
    g_date_time_new tz y m d (g_date_time_get_hour dt)
      (g_date_time_get_minute dt) (gdouble_of_int 0) = Some r
    /\ start_of_minute a = Returned {| m_tz := Some tz; m_dt := Some r |}.
Proof.
  intros Htz Hdt Hymd.
  pose proof (g_date_time_new_minute dt y m d Hymd) as Hnew.
  apply non_null_Some in Hnew as [r Hr]. exists r. split; [assumption|].
  now rewrite (start_of_minute_value a tz dt y m d Htz Hdt Hymd), Hr.
Qed.

(** X11: on a set value in zone [tz], truncating twice is truncating
    once: [start_of_day] and [start_of_minute] are idempotent, and
    [start_of_day] after [start_of_minute], like [start_of_minute] after
    [start_of_day], gives [start_of_day] of the receiver. *)
Theorem truncations_compose (a : DateTime) :
  is_set a = true -> m_tz a = Some tz ->
  (r <- start_of_day a ;; start_of_day r) = start_of_day a
  /\ (r <- start_of_minute a ;; start_of_minute r) = start_of_minute a
  /\ (r <- start_of_minute a ;; start_of_day r) = start_of_day a
  /\ (r <- start_of_day a ;; start_of_minute r) = start_of_day a.
Proof.
  intros Hset Htz. apply is_set_handles in Hset as (tz' & dt & _ & Hdt).
  destruct (g_date_time_get_ymd dt) as [[y m] d] eqn:Hymd.
  destruct (start_of_day_built a dt y m d Htz Hdt Hymd) as (r1 & Hr1 & Hday).
  destruct (start_of_minute_built a dt y m d Htz Hdt Hymd)
    as (r2 & Hr2 & Hmin).
  destruct (g_date_time_new_fields _ _ _ _ _ _ Hr1) as (F1 & H1 & M1 & _).
  destruct (g_date_time_new_fields _ _ _ _ _ _ Hr2) as (F2 & H2 & M2 & _).
  rewrite Hday, Hmin. run.
  set (a1 := {| m_tz := Some tz; m_dt := Some r1 |}).
  set (a2 := {| m_tz := Some tz; m_dt := Some r2 |}).
  rewrite (start_of_day_value a1 tz r1 y m d eq_refl eq_refl F1),
          (start_of_day_value a2 tz r2 y m d eq_refl eq_refl F2),
          (start_of_minute_value a1 tz r1 y m d eq_refl eq_refl F1),
          (start_of_minute_value a2 tz r2 y m d eq_refl eq_refl F2).
  rewrite H1, M1, H2, M2, Hr1, Hr2. auto.
Qed.

(** The year and the day of the year of a moment are those of its date. *)
Hypothesis g_date_time_day_of_date : forall x y,
  g_date_time_get_ymd x = g_date_time_get_ymd y ->
  g_date_time_get_year x = g_date_time_get_year y
  /\ g_date_time_get_day_of_year x = g_date_time_get_day_of_year y.

(** X12: a set value in zone [tz] is on the same day as its
    [start_of_day] and as its [start_of_minute], and in the same minute
    as its [start_of_minute], by the class's own predicates. *)
Theorem truncations_stay_close (a : DateTime) :
  is_set a = true -> m_tz a = Some tz ->
  (r <- start_of_day a ;; is_same_day a r) = Returned true
  /\ (r <- start_of_minute a ;; is_same_day a r) = Returned true
  /\ (r <- start_of_minute a ;; is_same_minute a r) = Returned true.
Proof.
  intros Hset Htz. apply is_set_handles in Hset as (tz' & dt & _ & Hdt).
  destruct (g_date_time_get_ymd dt) as [[y m] d] eqn:Hymd.
  destruct (start_of_day_built a dt y m d Htz Hdt Hymd) as (r1 & Hr1 & Hday).
  destruct (start_of_minute_built a dt y m d Htz Hdt Hymd)
    as (r2 & Hr2 & Hmin).
  destruct (g_date_time_new_fields _ _ _ _ _ _ Hr1) as (F1 & _).
  destruct (g_date_time_new_fields _ _ _ _ _ _ Hr2) as (F2 & H2 & M2 & _).
  rewrite <- Hymd in F1, F2.
  destruct (g_date_time_day_of_date dt r1 (eq_sym F1)) as [Y1 D1].
  destruct (g_date_time_day_of_date dt r2 (eq_sym F2)) as [Y2 D2].
  rewrite Hday, Hmin. run.
  split; [|split].
  - apply is_same_day_true_iff. now exists dt, r1.
  - apply is_same_day_true_iff. now exists dt, r2.
  - apply is_same_minute_true_iff. exists dt, r2. auto 10.
Qed.

End TruncationsCompose.

(** ** Conversions in a row *)

Section ConversionsCompose.

Context {glib : GLib}.

Hypothesis g_date_time_to_timezone_defined : forall dt tz,
  non_null (g_date_time_to_timezone dt (Some tz)) = true.

Hypothesis g_date_time_to_timezone_unix : forall dt tz r,
  g_date_time_to_timezone dt (Some tz) = Some r ->
  g_date_time_to_unix r = g_date_time_to_unix dt.

Lemma to_timezone_built (a : DateTime) dt (zone : string) tz :
  m_dt a = Some dt -> g_time_zone_new zone = Some tz ->
  exists r,
    g_date_time_to_timezone dt (Some tz) = Some r
    /\ to_timezone a zone = Returned {| m_tz := Some tz; m_dt := Some r |}.
Proof.
  intros Hdt Hz.
  pose proof (g_date_time_to_timezone_defined dt tz) as Hconv.
  apply non_null_Some in Hconv as [r Hr]. exists r. split; [assumption|].
  unfold to_timezone. rewrite Hz, (get_set a dt Hdt). run.
  now rewrite Hr.
Qed.

(** X13: converting a set value to one resolved zone and then to another
    returns a set value in the last zone with the Unix time of the
    receiver. *)
Theorem to_timezone_twice (a : DateTime) (z1 z2 : string) tz1 tz2 :
  is_set a = true ->
  g_time_zone_new z1 = Some tz1 -> g_time_zone_new z2 = Some tz2 ->
  exists r u,
    (x <- to_timezone a z1 ;; to_timezone x z2) = Returned r
    /\ is_set r = true
    /\ m_tz r = Some tz2
    /\ to_unix a = Returned u
    /\ to_unix r = Returned u.
Proof.
  intros Hset Hz1 Hz2. apply is_set_handles in Hset as (tz & dt & _ & Hdt).
  destruct (to_timezone_built a dt z1 tz1 Hdt Hz1) as (r1 & Hr1 & H1).
  destruct (to_timezone_built {| m_tz := Some tz1; m_dt := Some r1 |}
              r1 z2 tz2 eq_refl Hz2) as (r2 & Hr2 & H2).
  exists {| m_tz := Some tz2; m_dt := Some r2 |}, (g_date_time_to_unix dt).
  rewrite H1. run. rewrite H2.
  unfold to_unix, is_set, get. rewrite Hdt. cbn.
  rewrite (g_date_time_to_timezone_unix _ _ _ Hr2),
          (g_date_time_to_timezone_unix _ _ _ Hr1). auto.
Qed.

End ConversionsCompose.

(** ** The further properties on the calendar engine *)

Section FurtherOnTheEngine.

Import Gregorian.

Lemma engine_compare_swap (x y : moment) :
  compare_instants y x = - compare_instants x y.
Proof.
  unfold compare_instants. rewrite (Z.compare_antisym (instant x) (instant y)).
  destruct (instant x ?= instant y); reflexivity.
Qed.

Lemma engine_compare_difference (x y : moment) :
  compare_instants x y = Z.sgn (difference x y).
Proof.
  unfold compare_instants, difference.
  destruct (Z.compare_spec (instant x) (instant y)) as [E | L | G].
  - rewrite E, Z.sub_diag. reflexivity.
  - symmetry. apply Z.sgn_neg. lia.
  - symmetry. apply Z.sgn_pos. lia.
Qed.

Lemma engine_day_of_date (x y : moment) :
  get_ymd x = get_ymd y ->
  get_year x = get_year y /\ get_day_of_year x = get_day_of_year y.
Proof.
  intros H. unfold get_day_of_year, get_year. rewrite H.
  split; [reflexivity|]. f_equal. f_equal.
  unfold get_ymd in H.
  destruct (civil_from_days (local_day y)) as [[yy mm] dd] eqn:Hy.
  rewrite <- (days_from_civil_from_days _ _ _ _ H).
  now rewrite <- (days_from_civil_from_days _ _ _ _ Hy).
Qed.

Lemma produced_nine : @produced engine nine.
Proof. apply (@produced_Local engine in_utc 2024 1 15 9 0 0). reflexivity. Qed.

Lemma produced_nine_thirty_seconds : @produced engine nine_thirty_seconds.
Proof. apply (@produced_Local engine in_utc 2024 1 15 9 0 30). reflexivity. Qed.

Lemma accessors_return_iff_set_witness :
  produced nine
  /\ returns (ymd nine) = is_set nine
  /\ returns (day_of_month nine) = is_set nine
  /\ returns (hour nine) = is_set nine
  /\ returns (minute nine) = is_set nine
  /\ returns (seconds nine) = is_set nine
  /\ returns (to_unix nine) = is_set nine
  /\ returns (format nine "%H:%M") = is_set nine.
Proof.
  split; [exact produced_nine|].
  exact (@accessors_return_iff_set engine nine "%H:%M" produced_nine).
Defined.

Lemma binary_operators_return_iff_set_witness :
  produced nine /\ produced DateTime_default
  /\ returns (operator_lt nine DateTime_default) = false
  /\ returns (operator_le nine DateTime_default) = false
  /\ returns (operator_sub nine DateTime_default) = false
  /\ returns (operator_eq nine DateTime_default) = false
  /\ returns (operator_ne nine DateTime_default) = false.
Proof.
  split; [exact produced_nine|]. split; [exact (@produced_default engine)|].
  exact (@binary_operators_return_iff_set engine nine DateTime_default
           produced_nine (@produced_default engine)).
Defined.

Lemma transformations_return_iff_set_witness :
  produced nine
  /\ returns (add_full nine 0 1 0 0 0 (inject_Z 0)) = true
  /\ returns (add_days nine 1) = true
  /\ returns (start_of_day nine) = true
  /\ returns (start_of_minute nine) = true.
Proof.
  split; [exact produced_nine|].
  exact (@transformations_return_iff_set engine nine 0 1 0 0 0 (inject_Z 0)
           produced_nine).
Defined.

Lemma local_constructors_wrap_glib_witness :
  g_time_zone_new_local in_utc = Some utc
  /\ NowLocal in_utc
     = Returned {| m_tz := Some utc; m_dt := Some lunchtime |}
  /\ Local in_utc 2024 2 30 12 0 0 = Returned DateTime_default
  /\ DateTime_of_time_t in_utc 1705309200 = Returned nine.
Proof.
  split; [reflexivity|].
  exact (@local_constructors_wrap_glib engine in_utc utc 2024 2 30 12 0 0
           1705309200 eq_refl).
Defined.

Lemma transformations_wrap_glib_witness :
  m_tz nine = Some utc
  /\ g_time_zone_new "+09:00" = Some tokyo
  /\ add_full nine 0 0 0 7 0 (inject_Z 0) = Returned four_pm
  /\ add_days nine 0 = Returned nine
  /\ to_timezone nine "+09:00" = Returned nine_in_tokyo.
Proof.
  split; [reflexivity|]. split; [reflexivity|].
  exact (@transformations_wrap_glib engine nine utc
           {| instant := 1705309200000000; shown_in := utc |}
           0 0 0 7 0 0 (inject_Z 0) "+09:00" tokyo eq_refl eq_refl eq_refl).
Defined.

Lemma comparisons_agree_witness :
  exists lt le eq,
    operator_lt nine nine_thirty_seconds = Returned lt
    /\ operator_le nine nine_thirty_seconds = Returned le
    /\ operator_eq nine nine_thirty_seconds = Returned eq
    /\ operator_ne nine nine_thirty_seconds = Returned (negb eq)
    /\ le = lt || eq
    /\ lt && eq = false.
Proof.
  exact (@comparisons_agree engine nine nine_thirty_seconds _ _
           eq_refl eq_refl).
Defined.

Lemma comparisons_order_witness :
  operator_eq nine nine = Returned true
  /\ operator_ne nine nine = Returned false
  /\ operator_le nine nine = Returned true
  /\ operator_lt nine nine = Returned false
  /\ operator_eq nine nine_thirty_seconds
     = operator_eq nine_thirty_seconds nine
  /\ (operator_lt nine nine_thirty_seconds = Returned true ->
      operator_lt nine_thirty_seconds nine = Returned false)
  /\ (operator_le nine nine_thirty_seconds = Returned true
      \/ operator_le nine_thirty_seconds nine = Returned true)
  /\ (operator_le nine nine_thirty_seconds = Returned true ->
      operator_le nine_thirty_seconds nine = Returned true ->
      operator_eq nine nine_thirty_seconds = Returned true).
Proof.
  exact (@comparisons_order engine engine_compare_swap
           nine nine_thirty_seconds _ _ eq_refl eq_refl).
Defined.

Lemma comparisons_follow_difference_witness :
  exists diff,
    operator_sub nine nine_thirty_seconds = Returned diff
    /\ operator_lt nine nine_thirty_seconds = Returned (diff <? 0)
    /\ operator_le nine nine_thirty_seconds = Returned (diff <=? 0)
    /\ operator_eq nine nine_thirty_seconds = Returned (diff =? 0).
Proof.
  exact (@comparisons_follow_difference engine engine_compare_difference
           nine nine_thirty_seconds _ _ eq_refl eq_refl).
Defined.

Lemma truncations_compose_witness :
  (r <- start_of_day four_pm_in_tokyo ;; start_of_day r)
  = start_of_day four_pm_in_tokyo
  /\ (r <- start_of_minute four_pm_in_tokyo ;; start_of_minute r)
     = start_of_minute four_pm_in_tokyo
  /\ (r <- start_of_minute four_pm_in_tokyo ;; start_of_day r)
     = start_of_day four_pm_in_tokyo
  /\ (r <- start_of_day four_pm_in_tokyo ;; start_of_minute r)
     = start_of_day four_pm_in_tokyo.
Proof.
  exact (@truncations_compose engine tokyo (engine_new_fields tokyo)
           (engine_new_midnight tokyo) (engine_new_minute tokyo)
           four_pm_in_tokyo eq_refl eq_refl).
Defined.

Lemma truncations_stay_close_witness :
  (r <- start_of_day nine_thirty_seconds ;; is_same_day nine_thirty_seconds r)
  = Returned true
  /\ (r <- start_of_minute nine_thirty_seconds ;;
      is_same_day nine_thirty_seconds r) = Returned true
  /\ (r <- start_of_minute nine_thirty_seconds ;;
      is_same_minute nine_thirty_seconds r) = Returned true.
Proof.
  exact (@truncations_stay_close engine utc (engine_new_fields utc)
           (engine_new_midnight utc) (engine_new_minute utc)
           engine_day_of_date nine_thirty_seconds eq_refl eq_refl).
Defined.

Lemma to_timezone_twice_witness :
  exists r u,
    (x <- to_timezone nine "+09:00" ;; to_timezone x "-05:00") = Returned r
    /\ is_set r = true
    /\ m_tz r = Some new_york
    /\ to_unix nine = Returned u
    /\ to_unix r = Returned u.
Proof.
  exact (@to_timezone_twice engine engine_to_timezone_defined
           engine_to_timezone_unix nine "+09:00" "-05:00" tokyo new_york
           eq_refl eq_refl eq_refl).
Defined.

End FurtherOnTheEngine.
